(** * The Mangum adapter (mangum/adapter.py)

    A shallow embedding of the [Mangum] class: its constructor [__init__],
    which validates the configuration, and its entry point [__call__], which
    scopes the lifespan cycle with an [ExitStack], classifies the trigger
    event and runs the HTTP or the WebSocket cycle.

    The collaborators imported by the module ([LifespanCycle], [HTTPCycle],
    [WebSocketCycle], [WebSocket], [AbstractHandler]) live in other modules of
    the package; [__call__] is parameterised by their behaviour. Calls that
    reach the application or the session store act on a world [W]; every call
    [__call__] makes is also recorded in a trace, so that ordering properties
    can be stated. *)

From Stdlib Require Import String List Bool ZArith.
Import ListNotations.
Open Scope string_scope.
Open Scope list_scope.
Set Warnings "-register-all".

(** ** Python values *)

(** The values that cross the adapter without being inspected by it (events,
    contexts, bodies, responses, hook arguments). *)
Inductive pyval : Type :=
| PyNone
| PyBool (b : bool)
| PyInt (n : Z)
| PyStr (s : string)
| PyBytes (s : string)
| PyList (items : list pyval)
| PyDict (items : list (string * pyval))
| PyFunction (name : string)
| PyObject (cls : string) (truth : bool) (has_call : bool).

(** [bool(v)]. *)
Definition truthy (v : pyval) : bool :=
  match v with
  | PyNone => false
  | PyBool b => b
  | PyInt n => negb (Z.eqb n 0)
  | PyStr s | PyBytes s => negb (String.eqb s "")
  | PyList l => match l with [] => false | _ => true end
  | PyDict l => match l with [] => false | _ => true end
  | PyFunction _ => true
  | PyObject _ t _ => t
  end.

(** [callable(v)]. *)
Definition callable (v : pyval) : bool :=
  match v with
  | PyFunction _ => true
  | PyObject _ _ c => c
  | _ => false
  end.

(** Truth value of an [Optional[str]]. *)
Definition truthy_opt (o : option string) : bool :=
  match o with
  | Some s => negb (String.eqb s "")
  | None => false
  end.

(** [a or b] on [Optional[str]] operands: [a] when it is truthy, else [b]. *)
Definition py_or (a b : option string) : option string :=
  if truthy_opt a then a else b.

(** ** Exceptions and results *)

Inductive exn : Type :=
| ConfigurationError (msg : string)
| Exception (msg : string)
| UnboundLocalError (var : string)
| LifespanError (msg : string)
| Raised (cls : string) (msg : string).

Definition is_ConfigurationError (e : exn) : bool :=
  match e with ConfigurationError _ => true | _ => false end.

Definition is_LifespanError (e : exn) : bool :=
  match e with LifespanError _ => true | _ => false end.

(** [type(e) is Exception]: the base class itself, no subclass of it. *)
Definition is_plain_Exception (e : exn) : bool :=
  match e with Exception _ => true | _ => false end.

Inductive res (A : Type) : Type :=
| Ok (a : A)
| Raise (e : exn).
Arguments Ok {A} a.
Arguments Raise {A} e.

Definition raises {A : Type} (r : res A) : bool :=
  match r with Ok _ => false | Raise _ => true end.

Definition raises_with {A : Type} (p : exn -> bool) (r : res A) : bool :=
  match r with Ok _ => false | Raise e => p e end.

(** ** Module constants *)

Definition DEFAULT_TEXT_MIME_TYPES : list string :=
  [ "text/";
    "application/json";
    "application/javascript";
    "application/xml";
    "application/vnd.api+json" ].

(** ** Canonical requests and handlers *)

(** Spec data model: the three kinds of WebSocket event. *)
Inductive MessageType : Type := CONNECT | MESSAGE | DISCONNECT.

(** [handler.request]: an HTTP request or a [WsRequest], each with its own
    fields, which the adapter never reads. *)
Inductive CanonicalRequest : Type :=
| HttpRequest (fields : pyval)
| WsRequest (fields : pyval).

(** [isinstance(request, WsRequest)]. *)
Definition isinstance_WsRequest (r : CanonicalRequest) : bool :=
  match r with WsRequest _ => true | HttpRequest _ => false end.

(** The attributes of a handler that [__call__] reads. [message_type],
    [connection_id] and [api_gateway_endpoint_url] are read in the WebSocket
    branch only. *)
Module Handler.
Record t : Type := mk {
  request : CanonicalRequest;
  body : pyval;
  message_type : MessageType;
  connection_id : string;
  api_gateway_endpoint_url : option string;
  transform_response : pyval -> res pyval
}.
End Handler.

(** The keyword arguments [__call__] passes to [WebSocket(...)]. *)
Module WebSocket.
Record args : Type := mk {
  dsn : option string;
  api_gateway_endpoint_url : option string;
  api_gateway_region_name : option string;
  connect_hook : pyval;
  disconnect_hook : pyval
}.
End WebSocket.

(** ** The adapter *)

Section Adapter.

(** [ASGIApp]: the applications; [W]: the world the cycles act on (the
    application's state and the external session store); [Backend]: the
    session store handles built by [WebSocket(...)]. *)
Context {ASGIApp W Backend : Type}.

(** The attributes of a [Mangum] instance. *)
Record Mangum : Type := mkMangum {
  app : ASGIApp;
  lifespan : string;
  dsn : option string;
  api_gateway_endpoint_url : option string;
  api_gateway_region_name : option string;
  handler_kwargs : list (string * pyval);
  connect_hook : pyval;
  disconnect_hook : pyval
}.

(** [x in ("auto", "on", "off")]. *)
Definition lifespan_choices : list string := ["auto"; "on"; "off"].

Definition in_choices (x : string) : bool :=
  existsb (String.eqb x) lifespan_choices.

(** [Mangum.__init__]: stores the arguments, then validates [lifespan] and
    the two hooks, in that order. *)
Definition __init__ (app_arg : ASGIApp) (lifespan_arg : string)
  (dsn_arg api_gateway_endpoint_url_arg api_gateway_region_name_arg :
     option string)
  (connect_hook_arg disconnect_hook_arg : pyval)
  (handler_kwargs_arg : list (string * pyval)) : res Mangum :=
  let self :=
    {| app := app_arg;
       lifespan := lifespan_arg;
       dsn := dsn_arg;
       api_gateway_endpoint_url := api_gateway_endpoint_url_arg;
       api_gateway_region_name := api_gateway_region_name_arg;
       handler_kwargs := handler_kwargs_arg;
       connect_hook := connect_hook_arg;
       disconnect_hook := disconnect_hook_arg |} in
  if negb (in_choices self.(lifespan)) then
    Raise (ConfigurationError
      "Invalid argument supplied for `lifespan`. Choices are: auto|on|off")
  else if truthy connect_hook_arg && negb (callable connect_hook_arg) then
    Raise (Exception "Invalid connect_hook supplied. Must be a callable")
  else if truthy disconnect_hook_arg && negb (callable disconnect_hook_arg) then
    Raise (Exception "Invalid disconnect_hook supplied. Must be callable")
  else Ok self.

(** *** Collaborators *)

(** What the imported classes do when [__call__] uses them.
    - [LifespanCycle_enter app mode]: [LifespanCycle(app, mode).__enter__()];
    - [LifespanCycle_exit app mode exc]: its [__exit__], given the exception
      in flight, returning whether it asks to suppress it;
    - [from_trigger event context kwargs]: [AbstractHandler.from_trigger];
    - [WebSocket_new args]: [WebSocket(dsn=..., ...)] with these arguments;
    - [WebSocketCycle_call request message_type connection_id websocket app
      body]: [WebSocketCycle(...)(app, body)];
    - [HTTPCycle_call request app body]: [HTTPCycle(request)(app, body)]. *)
Record Collaborators : Type := mkCollaborators {
  LifespanCycle_enter : ASGIApp -> string -> W -> res unit * W;
  LifespanCycle_exit : ASGIApp -> string -> option exn -> W -> res bool * W;
  from_trigger : pyval -> pyval -> list (string * pyval) -> res Handler.t;
  WebSocket_new : WebSocket.args -> res Backend;
  WebSocketCycle_call :
    CanonicalRequest -> MessageType -> string -> Backend ->
    ASGIApp -> pyval -> W -> res pyval * W;
  HTTPCycle_call : CanonicalRequest -> ASGIApp -> pyval -> W -> res pyval * W
}.

(** *** Calls, in the order they are made *)

Inductive call : Type :=
| CallLifespanEnter (mode : string)
| CallLifespanExit (mode : string) (exc : option exn)
| CallFromTrigger (event : pyval)
| CallWebSocket (args : WebSocket.args)
| CallWebSocketCycle (request : CanonicalRequest) (body : pyval)
| CallHTTPCycle (request : CanonicalRequest) (body : pyval)
| CallTransformResponse (response : pyval).

Definition is_lifespan_call (c : call) : bool :=
  match c with
  | CallLifespanEnter _ | CallLifespanExit _ _ => true
  | _ => false
  end.

(** The HTTP and WebSocket cycles. *)
Definition is_cycle_call (c : call) : bool :=
  match c with
  | CallWebSocketCycle _ _ | CallHTTPCycle _ _ => true
  | _ => false
  end.

(** The construction of a session store handle. *)
Definition is_websocket_new (c : call) : bool :=
  match c with CallWebSocket _ => true | _ => false end.

(** [closes_scope mode l]: the calls [l], made after the lifespan scope of
    [mode] was entered, reach its exit without another lifespan call, and
    after the exit come neither lifespan calls nor cycles. *)
Fixpoint closes_scope (mode : string) (l : list call) : bool :=
  match l with
  | [] => false
  | CallLifespanExit m _ :: post =>
    String.eqb m mode
    && forallb (fun c => negb (is_lifespan_call c || is_cycle_call c)) post
  | c :: l' => negb (is_lifespan_call c) && closes_scope mode l'
  end.

(** *** State and errors *)

Record state : Type := mkState {
  world : W;
  trace : list call
}.

Definition M (A : Type) : Type := state -> res A * state.

Definition ret {A : Type} (a : A) : M A := fun s => (Ok a, s).

Definition raise {A : Type} (e : exn) : M A := fun s => (Raise e, s).

Definition bind {A B : Type} (m : M A) (k : A -> M B) : M B :=
  fun s =>
    match m s with
    | (Ok a, s') => k a s'
    | (Raise e, s') => (Raise e, s')
    end.

(** Runs [m] and hands its outcome over as a value, raised or returned. *)
Definition catch {A : Type} (m : M A) : M (res A) :=
  fun s => let (r, s') := m s in (Ok r, s').

Definition record (c : call) : M unit :=
  fun s => (Ok tt, mkState s.(world) (s.(trace) ++ [c])).

Definition on_world {A : Type} (f : W -> res A * W) : M A :=
  fun s => let (r, w) := f s.(world) in (r, mkState w s.(trace)).

Definition of_res {A : Type} (r : res A) : M A := fun s => (r, s).

Notation "x <- m ;; k" := (bind m (fun x => k))
  (at level 61, m at next level, right associativity).
Notation "m ;; k" := (bind m (fun _ => k))
  (at level 61, right associativity).

Variable E : Collaborators.

(** *** ExitStack *)

(** The exit callbacks registered on the stack, last one first. The only
    context managers [__call__] enters are [LifespanCycle(app, mode)]. *)
Definition ExitStack : Type := list (ASGIApp * string).

(** [stack.enter_context(cm)]: runs [cm.__enter__()]; [cm.__exit__] is
    registered only once it has returned. *)
Definition enter_context (cm : ASGIApp * string) (stack : ExitStack)
  : M ExitStack :=
  record (CallLifespanEnter (snd cm)) ;;
  on_world (LifespanCycle_enter E (fst cm) (snd cm)) ;;
  ret (cm :: stack).

(** [ExitStack.__exit__]: runs the callbacks, last registered first, each on
    the exception then in flight. A callback that returns true clears it, one
    that raises replaces it. The result is the exception left at the end. *)
Fixpoint unwind (stack : ExitStack) (exc : option exn) (s : state)
  : option exn * state :=
  match stack with
  | [] => (exc, s)
  | cm :: rest =>
    match (record (CallLifespanExit (snd cm) exc) ;;
           on_world (LifespanCycle_exit E (fst cm) (snd cm) exc)) s with
    | (Ok true, s') => unwind rest None s'
    | (Ok false, s') => unwind rest exc s'
    | (Raise e, s') => unwind rest (Some e) s'
    end
  end.

(** Leaving the [with] block, normally ([exc = None]) or by an exception:
    the statement is left normally when no exception remains, and by the
    remaining exception otherwise. *)
Definition leave_with (stack : ExitStack) (exc : option exn) : M unit :=
  fun s =>
    match unwind stack exc s with
    | (None, s') => (Ok tt, s')
    | (Some e, s') => (Raise e, s')
    end.

(** *** Mangum.__call__ *)

(** The arguments of [WebSocket(...)], lines 107-116. *)
Definition websocket_args (self : Mangum) (handler : Handler.t)
  : WebSocket.args :=
  let api_gateway_endpoint_url :=
    py_or self.(api_gateway_endpoint_url)
          handler.(Handler.api_gateway_endpoint_url) in
  {| WebSocket.dsn := self.(dsn);
     WebSocket.api_gateway_endpoint_url := api_gateway_endpoint_url;
     WebSocket.api_gateway_region_name := self.(api_gateway_region_name);
     WebSocket.connect_hook := self.(connect_hook);
     WebSocket.disconnect_hook := self.(disconnect_hook) |}.

(** Lines 106-123: the branch on the request and the cycle it runs. *)
Definition run_cycle (self : Mangum) (handler : Handler.t) : M pyval :=
  let request := handler.(Handler.request) in
  if isinstance_WsRequest request then
    let args := websocket_args self handler in
    record (CallWebSocket args) ;;
    websocket <- of_res (WebSocket_new E args) ;;
    record (CallWebSocketCycle request handler.(Handler.body)) ;;
    on_world (WebSocketCycle_call E request handler.(Handler.message_type)
                handler.(Handler.connection_id) websocket
                self.(app) handler.(Handler.body))
  else
    record (CallHTTPCycle request handler.(Handler.body)) ;;
    on_world (HTTPCycle_call E request self.(app) handler.(Handler.body)).

(** [Mangum.__call__], lines 93-125 (the debug log line apart). Lines 97-99
    enter the lifespan scope unless the mode is "off"; an exception of
    [__enter__] leaves the [with] statement with nothing registered. Lines
    101-104 classify the event, lines 106-123 run the cycle, and line 125,
    after the [with] statement, transforms the response. The block binds the
    locals [handler] and [response]; when an exception raised inside the
    block is suppressed by an exit callback, the [return] of line 125 finds
    its first unbound local and raises [UnboundLocalError]. *)
Definition __call__ (self : Mangum) (event context : pyval) : M pyval :=
  entered <- catch (if negb (String.eqb self.(lifespan) "off")
                  then enter_context (self.(app), self.(lifespan)) []
                  else ret []) ;;
  match entered with
  | Raise e => raise e
  | Ok stack =>
    classified <- catch (record (CallFromTrigger event) ;;
                       of_res (from_trigger E event context
                                 self.(handler_kwargs))) ;;
    match classified with
    | Raise e =>
      leave_with stack (Some e) ;;
      raise (UnboundLocalError "handler")
    | Ok handler =>
      ran <- catch (run_cycle self handler) ;;
      match ran with
      | Raise e =>
        leave_with stack (Some e) ;;
        raise (UnboundLocalError "response")
      | Ok response =>
        leave_with stack None ;;
        record (CallTransformResponse response) ;;
        of_res (handler.(Handler.transform_response) response)
      end
    end
  end.

(** One invocation from world [w]: what the caller gets, the world left
    behind, and the calls made. *)
Definition invoke (self : Mangum) (event context : pyval) (w : W)
  : res pyval * state :=
  __call__ self event context (mkState w []).

Definition outcome (self : Mangum) (event context : pyval) (w : W)
  : res pyval :=
  fst (invoke self event context w).

Definition calls (self : Mangum) (event context : pyval) (w : W)
  : list call :=
  trace (snd (invoke self event context w)).

Definition final_world (self : Mangum) (event context : pyval) (w : W) : W :=
  world (snd (invoke self event context w)).

(** Constructing an adapter and calling it on one event, as a deployment
    does: no call is made unless the constructor returned an instance. *)
Definition construct_and_invoke (lifespan_arg : string)
  (dsn_arg url_arg region_arg : option string)
  (connect_hook_arg disconnect_hook_arg : pyval)
  (kwargs : list (string * pyval))
  (app_arg : ASGIApp) (event context : pyval) (w : W) : res pyval * state :=
  match __init__ app_arg lifespan_arg dsn_arg url_arg region_arg
          connect_hook_arg disconnect_hook_arg kwargs with
  | Raise e => (Raise e, mkState w [])
  | Ok self => invoke self event context w
  end.

End Adapter.

Arguments Mangum ASGIApp : clear implicits.
Arguments Collaborators ASGIApp W Backend : clear implicits.
Arguments state W : clear implicits.

(** *** Replacing one collaborator *)

Section Replace.
Context {ASGIApp W Backend : Type}.
Variable E : Collaborators ASGIApp W Backend.

Definition with_LifespanCycle_enter
  (f : ASGIApp -> string -> W -> res unit * W)
  : Collaborators ASGIApp W Backend :=
  {| LifespanCycle_enter := f;
     LifespanCycle_exit := LifespanCycle_exit E;
     from_trigger := from_trigger E;
     WebSocket_new := WebSocket_new E;
     WebSocketCycle_call := WebSocketCycle_call E;
     HTTPCycle_call := HTTPCycle_call E |}.

Definition with_LifespanCycle_exit
  (f : ASGIApp -> string -> option exn -> W -> res bool * W)
  : Collaborators ASGIApp W Backend :=
  {| LifespanCycle_enter := LifespanCycle_enter E;
     LifespanCycle_exit := f;
     from_trigger := from_trigger E;
     WebSocket_new := WebSocket_new E;
     WebSocketCycle_call := WebSocketCycle_call E;
     HTTPCycle_call := HTTPCycle_call E |}.

Definition with_from_trigger
  (f : pyval -> pyval -> list (string * pyval) -> res Handler.t)
  : Collaborators ASGIApp W Backend :=
  {| LifespanCycle_enter := LifespanCycle_enter E;
     LifespanCycle_exit := LifespanCycle_exit E;
     from_trigger := f;
     WebSocket_new := WebSocket_new E;
     WebSocketCycle_call := WebSocketCycle_call E;
     HTTPCycle_call := HTTPCycle_call E |}.

Definition with_WebSocket_new (f : WebSocket.args -> res Backend)
  : Collaborators ASGIApp W Backend :=
  {| LifespanCycle_enter := LifespanCycle_enter E;
     LifespanCycle_exit := LifespanCycle_exit E;
     from_trigger := from_trigger E;
     WebSocket_new := f;
     WebSocketCycle_call := WebSocketCycle_call E;
     HTTPCycle_call := HTTPCycle_call E |}.

(** The lifespan scope around the [with] block, seen from the world: with
    mode "off" nothing happens; otherwise [__enter__] returned, leading from
    [w] to [w1]. *)
Definition scope_entered (self : Mangum ASGIApp) (w w1 : W) : Prop :=
  if String.eqb self.(lifespan) "off" then w1 = w
  else LifespanCycle_enter E self.(app) self.(lifespan) w = (Ok tt, w1).

(** With mode "off" nothing happens; otherwise [__exit__], called on the
    exception [exc] in flight, returned without raising and without asking
    to suppress an exception, leading from [w1] to [w2]. *)
Definition scope_left (self : Mangum ASGIApp) (exc : option exn) (w1 w2 : W)
  : Prop :=
  if String.eqb self.(lifespan) "off" then w2 = w1
  else exists b : bool,
      LifespanCycle_exit E self.(app) self.(lifespan) exc w1 = (Ok b, w2)
      /\ (b = true -> exc = None).

End Replace.

(** ** The collaborators as the specification describes them *)

(** The error of a trigger event that no handler recognizes. *)
Definition unrecognized_trigger : exn :=
  ConfigurationError "Unable to determine handler from trigger event".

(** Modelled from the spec: [AbstractHandler.from_trigger] of mangum/handlers,
    whose source is not available. Section 4.1: the dispatcher "classifies
    rawEvent into a CanonicalRequest. Unrecognized shapes fail with
    ConfigurationError"; section 6: the classifier "accepts any HTTP-trigger
    or WebSocket-trigger shape from a known set of source formats; raises a
    classification error for anything else". The known formats are the
    parameter [recognize]. *)
Definition from_trigger_spec
  (recognize : pyval -> pyval -> list (string * pyval) -> option Handler.t)
  (event context : pyval) (kwargs : list (string * pyval)) : res Handler.t :=
  match recognize event context kwargs with
  | Some handler => Ok handler
  | None => Raise unrecognized_trigger
  end.

(** The reading of "an unrecognized event fails with a ConfigurationError
    and no cycle runs before it is raised" in which the lifespan cycle counts
    as a cycle: the error is a ConfigurationError and no call to a lifespan,
    HTTP or WebSocket cycle was made. *)
Definition fails_before_any_cycle {ASGIApp W Backend : Type}
  (E : Collaborators ASGIApp W Backend)
  (recognize : pyval -> pyval -> list (string * pyval) -> option Handler.t)
  (self : Mangum ASGIApp) (event context : pyval) (w : W) : Prop :=
  recognize event context self.(handler_kwargs) = None ->
  raises_with is_ConfigurationError
    (outcome (with_from_trigger E (from_trigger_spec recognize))
       self event context w) = true
  /\ forallb (fun c => negb (is_lifespan_call c || is_cycle_call c))
       (calls (with_from_trigger E (from_trigger_spec recognize))
          self event context w) = true.

(** The session store handle: the configuration [WebSocket] was built
    with, its connection string being present. *)
Record SessionStore : Type := mkSessionStore {
  store_dsn : string;
  store_endpoint_url : option string;
  store_region_name : option string;
  store_connect_hook : pyval;
  store_disconnect_hook : pyval
}.

Definition missing_dsn : exn :=
  ConfigurationError
    "The `dsn` parameter must be provided for WebSocket connections.".

(** Modelled from the spec: the constructor of the [WebSocket] backend of
    mangum/backends, whose source is not available. Section 6:
    "Configuration identifies which backend implementation and endpoint to
    use; absence of required configuration for a WebSocket trigger is a fatal
    configuration error"; section 7 lists it among the pre-flight
    ConfigurationErrors, "surfaced immediately; no cycle runs". *)
Definition WebSocket_spec (a : WebSocket.args) : res SessionStore :=
  match a.(WebSocket.dsn) with
  | None => Raise missing_dsn
  | Some d =>
    Ok {| store_dsn := d;
          store_endpoint_url := a.(WebSocket.api_gateway_endpoint_url);
          store_region_name := a.(WebSocket.api_gateway_region_name);
          store_connect_hook := a.(WebSocket.connect_hook);
          store_disconnect_hook := a.(WebSocket.disconnect_hook) |}
  end.

(** Spec data model: the states of the lifespan cycle. *)
Inductive LifespanState : Type := NOT_STARTED | STARTED | FAILED | STOPPED.

(** What the wait for the application's acknowledgement ends with. *)
Inductive Acknowledgement : Type :=
| Complete
| Failure (msg : string)
| TimedOut.

Definition after_startup (a : Acknowledgement) : LifespanState :=
  match a with
  | Complete => STARTED
  | Failure _ | TimedOut => FAILED
  end.

Section LifespanSpec.
Context {ASGIApp W : Type}.

(** The application's side of the two handshakes. *)
Variable startup : ASGIApp -> W -> Acknowledgement * W.
Variable shutdown : ASGIApp -> W -> Acknowledgement * W.

(** Modelled from the spec: [LifespanCycle.__enter__] of mangum/protocols,
    whose source is not available. Section 4.2: "On scope entry: sends a
    startup signal through the long-lived protocol and blocks until the
    application acknowledges startup-complete or startup-failed, or a bounded
    timeout elapses. Mode auto: startup/shutdown failures are logged and
    swallowed [...] Mode on: startup failure is fatal and aborts the
    invocation before any cycle runs"; section 7: "LifespanError (recoverable
    under auto, fatal under on): startup/shutdown handshake failure or
    timeout". *)
Definition LifespanCycle_enter_spec (app_arg : ASGIApp) (mode : string)
  (w : W) : res unit * W :=
  let (ack, w') := startup app_arg w in
  match after_startup ack with
  | FAILED =>
    if String.eqb mode "on"
    then (Raise (LifespanError "Lifespan startup failed."), w')
    else (Ok tt, w')
  | _ => (Ok tt, w')
  end.

(** Modelled from the spec: [LifespanCycle.__exit__] of mangum/protocols,
    whose source is not available. Section 4.2: "On scope exit: sends a
    shutdown signal and waits for acknowledgement with the same timeout
    policy; errors here are logged, never override the primary response". *)
Definition LifespanCycle_exit_spec (app_arg : ASGIApp) (mode : string)
  (exc : option exn) (w : W) : res bool * W :=
  let (_, w') := shutdown app_arg w in (Ok false, w').

End LifespanSpec.

(** ** A concrete deployment

    A small world in which the model runs: the world is the list of
    protocol messages the application has received so far. *)

Module Example.

Record App : Type := mkApp {
  acknowledges_startup : bool;
  cycle_raises : bool
}.

Definition World : Type := list string.

Definition startup (a : App) (w : World) : Acknowledgement * World :=
  (if a.(acknowledges_startup) then Complete else Failure "startup failed",
   w ++ ["lifespan.startup"]).

Definition shutdown (a : App) (w : World) : Acknowledgement * World :=
  (Complete, w ++ ["lifespan.shutdown"]).

Fixpoint has_key (k : string) (items : list (string * pyval)) : bool :=
  match items with
  | [] => false
  | (k', _) :: rest => String.eqb k k' || has_key k rest
  end.

Definition ws_handler (event : pyval) : Handler.t :=
  {| Handler.request := WsRequest event;
     Handler.body := PyBytes "ping";
     Handler.message_type := MESSAGE;
     Handler.connection_id := "abc";
     Handler.api_gateway_endpoint_url := Some "https://derived.example/dev";
     Handler.transform_response := fun r => Ok r |}.

Definition http_handler (event : pyval) : Handler.t :=
  {| Handler.request := HttpRequest event;
     Handler.body := PyBytes "";
     Handler.message_type := MESSAGE;
     Handler.connection_id := "";
     Handler.api_gateway_endpoint_url := None;
     Handler.transform_response :=
       fun r => Ok (PyDict [("isBase64Encoded", PyBool false); ("reply", r)]) |}.

Definition recognize (event context : pyval) (kwargs : list (string * pyval))
  : option Handler.t :=
  match event with
  | PyDict items =>
    if has_key "connectionId" items then Some (ws_handler event)
    else if has_key "httpMethod" items then Some (http_handler event)
    else None
  | _ => None
  end.

Definition boom : exn := Raised "RuntimeError" "boom".

Definition http_cycle (request : CanonicalRequest) (a : App) (body : pyval)
  (w : World) : res pyval * World :=
  (if a.(cycle_raises) then Raise boom
   else Ok (PyDict [("status", PyInt 200); ("body", PyBytes "ok")]),
   w ++ ["http.request"]).

Definition ws_cycle (request : CanonicalRequest) (mt : MessageType)
  (cid : string) (store : SessionStore) (a : App) (body : pyval) (w : World)
  : res pyval * World :=
  (if a.(cycle_raises) then Raise boom
   else Ok (PyDict [("statusCode", PyInt 200)]),
   w ++ ["websocket.receive"]).

Definition collaborators : Collaborators App World SessionStore :=
  {| LifespanCycle_enter := LifespanCycle_enter_spec startup;
     LifespanCycle_exit := LifespanCycle_exit_spec shutdown;
     from_trigger := from_trigger_spec recognize;
     WebSocket_new := WebSocket_spec;
     WebSocketCycle_call := ws_cycle;
     HTTPCycle_call := http_cycle |}.

Definition good_app : App := mkApp true false.
Definition failing_startup_app : App := mkApp false false.
Definition raising_app : App := mkApp true true.

Definition adapter (a : App) (mode : string) (dsn_arg url_arg : option string)
  : Mangum App :=
  {| app := a;
     lifespan := mode;
     dsn := dsn_arg;
     api_gateway_endpoint_url := url_arg;
     api_gateway_region_name := None;
     handler_kwargs := [];
     connect_hook := PyNone;
     disconnect_hook := PyNone |}.

Definition http_event : pyval :=
  PyDict [("httpMethod", PyStr "GET"); ("path", PyStr "/")].

Definition ws_event : pyval :=
  PyDict [("connectionId", PyStr "abc"); ("eventType", PyStr "MESSAGE")].

Definition unknown_event : pyval := PyDict [("Records", PyList [])].

End Example.

(** ** Further readings of a trace *)

(** The response transformation of line 125. *)
Definition is_transform_call (c : call) : bool :=
  match c with CallTransformResponse _ => true | _ => false end.

(** The classification of lines 101-103. *)
Definition is_from_trigger_call (c : call) : bool :=
  match c with CallFromTrigger _ => true | _ => false end.

Definition is_http_cycle_call (c : call) : bool :=
  match c with CallHTTPCycle _ _ => true | _ => false end.

(** [transform_only_last l]: no call of [l] but the last one is a response
    transformation. *)
Fixpoint transform_only_last (l : list call) : bool :=
  match l with
  | [] => true
  | c :: rest =>
    match rest with
    | [] => true
    | _ :: _ => negb (is_transform_call c) && transform_only_last rest
    end
  end.

(** ** What the collaborators did, for the statements *)

(** The exception a result carries, if any: what an exit callback is
    called on when the block ended with that result. *)
Definition exc_of {A : Type} (r : res A) : option exn :=
  match r with Ok _ => None | Raise e => Some e end.

(** What the caller gets when the block raised [e] and the exit callback
    answered [x]: the callback's own exception when it raised; when it
    suppressed [e], the UnboundLocalError of [var], the first local that the
    [return] of line 125 finds unbound; else [e]. *)
Definition after_raise (var : string) (e : exn) (x : res bool) : res pyval :=
  match x with
  | Raise e' => Raise e'
  | Ok true => Raise (UnboundLocalError var)
  | Ok false => Raise e
  end.

(** What the caller gets when the block returned, the transformation of its
    response gives [t] and the exit callback answered [x]. *)
Definition after_return (t : res pyval) (x : res bool) : res pyval :=
  match x with
  | Raise e' => Raise e'
  | Ok _ => t
  end.

(** The cycle that [handler] calls for, run on the application and the body
    from world [w1], ended with [blk] in world [w2]: the WebSocket cycle on a
    handle that [WebSocket(...)] returned, for a [WsRequest]; the HTTP cycle
    otherwise. *)
Definition cycle_gives {ASGIApp W Backend : Type}
  (E : Collaborators ASGIApp W Backend) (self : Mangum ASGIApp)
  (handler : Handler.t) (w1 : W) (blk : res pyval) (w2 : W) : Prop :=
  if isinstance_WsRequest handler.(Handler.request) then
    exists websocket,
      WebSocket_new E (websocket_args self handler) = Ok websocket
      /\ WebSocketCycle_call E handler.(Handler.request)
           handler.(Handler.message_type) handler.(Handler.connection_id)
           websocket self.(app) handler.(Handler.body) w1 = (blk, w2)
  else
    HTTPCycle_call E handler.(Handler.request) self.(app)
      handler.(Handler.body) w1 = (blk, w2).

(** The same adapter with the lifespan mode "off". *)
Definition without_lifespan {ASGIApp : Type} (self : Mangum ASGIApp)
  : Mangum ASGIApp :=
  {| app := self.(app);
     lifespan := "off";
     dsn := self.(dsn);
     api_gateway_endpoint_url := self.(api_gateway_endpoint_url);
     api_gateway_region_name := self.(api_gateway_region_name);
     handler_kwargs := self.(handler_kwargs);
     connect_hook := self.(connect_hook);
     disconnect_hook := self.(disconnect_hook) |}.

(** * Properties *)

(** ** The constructor *)

Lemma in_choices_In (x : string) :
  in_choices x = true <-> In x ["auto"; "on"; "off"].
Proof.
  unfold in_choices, lifespan_choices. rewrite existsb_exists. split.
  - intros [y [Hy Heq]]. apply String.eqb_eq in Heq. now subst.
  - intros H. exists x. split; [exact H | apply String.eqb_refl].
Qed.

Lemma not_in_choices (x : string) :
  ~ In x ["auto"; "on"; "off"] -> in_choices x = false.
Proof.
  intros H. destruct (in_choices x) eqn:Hx; [|reflexivity].
  apply in_choices_In in Hx. contradiction.
Qed.

(** C10: the default list of text MIME types is the prefix "text/" followed
    by "application/json", "application/javascript", "application/xml" and
    "application/vnd.api+json", in that order, and nothing else. *)
Theorem default_text_mime_types_contents :
  DEFAULT_TEXT_MIME_TYPES =
    ["text/"; "application/json"; "application/javascript";
     "application/xml"; "application/vnd.api+json"]
  /\ length DEFAULT_TEXT_MIME_TYPES = 5
  /\ nth_error DEFAULT_TEXT_MIME_TYPES 0 = Some "text/"
  /\ nth_error DEFAULT_TEXT_MIME_TYPES 1 = Some "application/json"
  /\ nth_error DEFAULT_TEXT_MIME_TYPES 2 = Some "application/javascript"
  /\ nth_error DEFAULT_TEXT_MIME_TYPES 3 = Some "application/xml"
  /\ nth_error DEFAULT_TEXT_MIME_TYPES 4 = Some "application/vnd.api+json".
Proof. repeat split. Qed.

(** C6: a [lifespan] argument other than "auto", "on" and "off" makes the
    constructor raise a ConfigurationError, whatever the other arguments; no
    instance exists, so a deployment that constructs the adapter and hands it
    an event fails with that error without making a single call and without
    touching the world. *)
Theorem init_rejects_invalid_lifespan
  {ASGIApp W Backend : Type} (E : Collaborators ASGIApp W Backend)
  (a : ASGIApp) (mode : string) (dsn_arg url_arg region_arg : option string)
  (connect disconnect : pyval) (kwargs : list (string * pyval))
  (event context : pyval) (w : W) :
  ~ In mode ["auto"; "on"; "off"] ->
  __init__ a mode dsn_arg url_arg region_arg connect disconnect kwargs
    = Raise (ConfigurationError
        "Invalid argument supplied for `lifespan`. Choices are: auto|on|off")
  /\ construct_and_invoke E mode dsn_arg url_arg region_arg connect disconnect
       kwargs a event context w
     = (Raise (ConfigurationError
         "Invalid argument supplied for `lifespan`. Choices are: auto|on|off"),
        mkState w []).
Proof.
  intros Hmode. apply not_in_choices in Hmode.
  assert (Hinit :
    __init__ a mode dsn_arg url_arg region_arg connect disconnect kwargs
    = Raise (ConfigurationError
        "Invalid argument supplied for `lifespan`. Choices are: auto|on|off")).
  { unfold __init__. cbn [lifespan]. now rewrite Hmode. }
  split; [exact Hinit|].
  unfold construct_and_invoke. now rewrite Hinit.
Qed.

(** The mode "always" is rejected. *)
Lemma init_rejects_invalid_lifespan_witness :
  __init__ Example.good_app "always" None None None PyNone PyNone []
    = Raise (ConfigurationError
        "Invalid argument supplied for `lifespan`. Choices are: auto|on|off")
  /\ construct_and_invoke Example.collaborators "always" None None None
       PyNone PyNone [] Example.good_app Example.http_event PyNone []
     = (Raise (ConfigurationError
         "Invalid argument supplied for `lifespan`. Choices are: auto|on|off"),
        mkState [] []).
Proof.
  apply (init_rejects_invalid_lifespan Example.collaborators).
  simpl. intros [H | [H | [H | []]]]; discriminate H.
Defined.

(** C9: a hook that is truthy and not callable makes the constructor raise,
    as [connect_hook] and as [disconnect_hook]; when the [lifespan] argument
    is valid the exception is a plain Exception and no ConfigurationError;
    and with both hooks left at None a valid [lifespan] is all the
    constructor asks for. *)
Theorem init_validates_hooks
  {ASGIApp : Type} (a : ASGIApp) (mode : string)
  (dsn_arg url_arg region_arg : option string)
  (hook other : pyval) (kwargs : list (string * pyval)) :
  (truthy hook = true -> callable hook = false ->
   raises (__init__ a mode dsn_arg url_arg region_arg hook other kwargs) = true
   /\ raises (__init__ a mode dsn_arg url_arg region_arg other hook kwargs)
      = true)
  /\ (In mode ["auto"; "on"; "off"] ->
      truthy hook = true -> callable hook = false ->
      raises_with is_plain_Exception
        (__init__ a mode dsn_arg url_arg region_arg hook other kwargs) = true
      /\ raises_with is_plain_Exception
        (__init__ a mode dsn_arg url_arg region_arg other hook kwargs) = true
      /\ raises_with is_ConfigurationError
        (__init__ a mode dsn_arg url_arg region_arg hook other kwargs) = false
      /\ raises_with is_ConfigurationError
        (__init__ a mode dsn_arg url_arg region_arg other hook kwargs) = false)
  /\ (In mode ["auto"; "on"; "off"] ->
      __init__ a mode dsn_arg url_arg region_arg PyNone PyNone kwargs
      = Ok (mkMangum a mode dsn_arg url_arg region_arg kwargs PyNone PyNone)).
Proof.
  split; [|split].
  - intros Ht Hc. unfold __init__; cbn [lifespan]. rewrite Ht, Hc.
    cbn [negb andb].
    destruct (in_choices mode); cbn [negb];
      destruct (truthy other && negb (callable other)); auto.
  - intros Hmode Ht Hc. apply in_choices_In in Hmode.
    unfold __init__; cbn [lifespan]. rewrite Hmode, Ht, Hc. cbn.
    destruct (truthy other && negb (callable other)); auto.
  - intros Hmode. apply in_choices_In in Hmode.
    unfold __init__; cbn [lifespan]. now rewrite Hmode.
Qed.

(** A string as [connect_hook], a number as [disconnect_hook], and no hooks
    at all. *)
Lemma init_validates_hooks_witness :
  raises_with is_plain_Exception
    (__init__ Example.good_app "auto" None None None
       (PyStr "not a function") PyNone []) = true
  /\ raises_with is_plain_Exception
    (__init__ Example.good_app "auto" None None None
       (PyFunction "on_connect") (PyInt 7) []) = true
  /\ __init__ Example.good_app "auto" None None None PyNone PyNone []
     = Ok (Example.adapter Example.good_app "auto" None None).
Proof.
  assert (Hin : In "auto" ["auto"; "on"; "off"]) by (simpl; auto).
  destruct (init_validates_hooks Example.good_app "auto" None None None
              (PyStr "not a function") PyNone [])
    as [_ [H1 H3]].
  destruct (init_validates_hooks Example.good_app "auto" None None None
              (PyInt 7) (PyFunction "on_connect") [])
    as [_ [H2 _]].
  destruct (H1 Hin eq_refl eq_refl) as [Ha _].
  destruct (H2 Hin eq_refl eq_refl) as [_ [Hb _]].
  split; [exact Ha | split; [exact Hb | exact (H3 Hin)]].
Defined.

(** ** The model at work *)

(** An HTTP request, lifespan mode "auto": startup, the request, shutdown,
    then the transformed response. *)
Example http_request_in_auto_mode :
  invoke Example.collaborators
    (Example.adapter Example.good_app "auto" None None)
    Example.http_event PyNone []
  = (Ok (PyDict [("isBase64Encoded", PyBool false);
                 ("reply", PyDict [("status", PyInt 200);
                                   ("body", PyBytes "ok")])]),
     mkState ["lifespan.startup"; "http.request"; "lifespan.shutdown"]
       [CallLifespanEnter "auto"; CallFromTrigger Example.http_event;
        CallHTTPCycle (HttpRequest Example.http_event) (PyBytes "");
        CallLifespanExit "auto" None;
        CallTransformResponse
          (PyDict [("status", PyInt 200); ("body", PyBytes "ok")])]).
Proof. reflexivity. Qed.

(** An exit callback that raises replaces the exception of the cycle. *)
Example raising_exit_replaces_exception :
  outcome
    (with_LifespanCycle_exit Example.collaborators
       (fun _ _ _ w => (Raise (LifespanError "shutdown failed"), w)))
    (Example.adapter Example.raising_app "auto" None None)
    Example.http_event PyNone []
  = Raise (LifespanError "shutdown failed").
Proof. reflexivity. Qed.

(** An exit callback that suppresses the exception of the cycle leaves
    [response] unbound at the [return]. *)
Example suppressed_exception_leaves_response_unbound :
  outcome
    (with_LifespanCycle_exit Example.collaborators
       (fun _ _ _ w => (Ok true, w)))
    (Example.adapter Example.raising_app "auto" None None)
    Example.http_event PyNone []
  = Raise (UnboundLocalError "response").
Proof. reflexivity. Qed.

(** ** Running [__call__] in proofs *)

Ltac norm_call :=
  repeat progress
    (unfold bind, catch, record, on_world, of_res, ret, raise, leave_with,
       enter_context, run_cycle in *;
     cbn [unwind world trace fst snd List.app negb] in * ).

Ltac unfold_call :=
  unfold outcome, calls, final_world, invoke, __call__; norm_call.

(** Evaluates with the results of the collaborators that the context gives. *)
Ltac run_call :=
  unfold_call;
  repeat (match goal with
          | H : ?x = _ |- context [?x] => rewrite H
          end; norm_call).

(** Splits on the results that the context leaves open. *)
Ltac split_call :=
  repeat (match goal with
          | |- context [match ?x with _ => _ end] =>
            lazymatch x with
            | context [match _ with _ => _ end] => fail
            | _ => destruct x eqn:?
            end
          end; norm_call).

Lemma closes_scope_split (mode : string) (l : list call) :
  closes_scope mode l = true ->
  exists mid exc post,
    l = mid ++ CallLifespanExit mode exc :: post
    /\ forallb (fun c => negb (is_lifespan_call c)) mid = true
    /\ forallb (fun c => negb (is_lifespan_call c || is_cycle_call c)) post
       = true.
Proof.
  induction l as [|c l IH]; [discriminate|].
  destruct c; cbn [closes_scope is_lifespan_call negb andb];
    try discriminate;
    try (intros H; destruct (IH H) as (mid & exc & post & -> & Hm & Hp);
         eexists (_ :: mid), exc, post; repeat split; assumption).
  intros H. apply andb_true_iff in H as [Hm Hp]. apply String.eqb_eq in Hm.
  subst. exists [], exc, l. repeat split. exact Hp.
Qed.

(** ** The entry point *)

(** C1: once the event is classified, the request alone decides the branch.
    For a [WsRequest] the session store handle is built from the instance and
    the handler, the WebSocket cycle runs on the application and the body,
    and no HTTP cycle runs; for any other request the HTTP cycle runs on the
    application and the body, and no handle is built. In both cases, when the
    cycle returns [r], the caller gets [handler.transform_response(r)]. *)
Theorem dispatch_on_request_variant
  {ASGIApp W Backend : Type} (E : Collaborators ASGIApp W Backend)
  (self : Mangum ASGIApp) (event context : pyval) (w w1 : W)
  (h : Handler.t) :
  scope_entered E self w w1 ->
  from_trigger E event context (handler_kwargs self) = Ok h ->
  (isinstance_WsRequest (Handler.request h) = true ->
   forall ws r w2 w3,
     WebSocket_new E (websocket_args self h) = Ok ws ->
     WebSocketCycle_call E (Handler.request h) (Handler.message_type h)
       (Handler.connection_id h) ws (app self) (Handler.body h) w1
       = (Ok r, w2) ->
     scope_left E self None w2 w3 ->
     outcome E self event context w = Handler.transform_response h r
     /\ final_world E self event context w = w3
     /\ filter (fun c => is_websocket_new c || is_cycle_call c)
          (calls E self event context w)
        = [CallWebSocket (websocket_args self h);
           CallWebSocketCycle (Handler.request h) (Handler.body h)])
  /\ (isinstance_WsRequest (Handler.request h) = false ->
      forall r w2 w3,
        HTTPCycle_call E (Handler.request h) (app self) (Handler.body h) w1
          = (Ok r, w2) ->
        scope_left E self None w2 w3 ->
        outcome E self event context w = Handler.transform_response h r
        /\ final_world E self event context w = w3
        /\ filter (fun c => is_websocket_new c || is_cycle_call c)
             (calls E self event context w)
           = [CallHTTPCycle (Handler.request h) (Handler.body h)]).
Proof.
  unfold scope_entered, scope_left. intros Henter Hft.
  destruct (String.eqb (lifespan self) "off") eqn:Hmode.
  - subst w1. split.
    + intros Hreq ws r w2 w3 Hws Hcycle ->. run_call.
      destruct (Handler.transform_response h r); auto.
    + intros Hreq r w2 w3 Hcycle ->. run_call.
      destruct (Handler.transform_response h r); auto.
  - split.
    + intros Hreq ws r w2 w3 Hws Hcycle (b & Hexit & _). run_call.
      destruct b; norm_call; destruct (Handler.transform_response h r); auto.
    + intros Hreq r w2 w3 Hcycle (b & Hexit & _). run_call.
      destruct b; norm_call; destruct (Handler.transform_response h r); auto.
Qed.

(** A WebSocket message and an HTTP request, lifespan mode "auto". *)
Lemma dispatch_on_request_variant_witness :
  outcome Example.collaborators
    (Example.adapter Example.good_app "auto" (Some "sqlite://db") None)
    Example.ws_event PyNone []
  = Ok (PyDict [("statusCode", PyInt 200)])
  /\ outcome Example.collaborators
       (Example.adapter Example.good_app "auto" None None)
       Example.http_event PyNone []
     = Ok (PyDict [("isBase64Encoded", PyBool false);
                   ("reply", PyDict [("status", PyInt 200);
                                     ("body", PyBytes "ok")])]).
Proof.
  split.
  - destruct (dispatch_on_request_variant Example.collaborators
                (Example.adapter Example.good_app "auto"
                   (Some "sqlite://db") None)
                Example.ws_event PyNone [] ["lifespan.startup"]
                (Example.ws_handler Example.ws_event) eq_refl eq_refl)
      as [Hws _].
    refine (proj1 (Hws eq_refl
              (mkSessionStore "sqlite://db"
                 (Some "https://derived.example/dev") None PyNone PyNone)
              (PyDict [("statusCode", PyInt 200)])
              ["lifespan.startup"; "websocket.receive"]
              ["lifespan.startup"; "websocket.receive"; "lifespan.shutdown"]
              eq_refl eq_refl _)).
    exists false. split; [reflexivity | discriminate].
  - destruct (dispatch_on_request_variant Example.collaborators
                (Example.adapter Example.good_app "auto" None None)
                Example.http_event PyNone [] ["lifespan.startup"]
                (Example.http_handler Example.http_event) eq_refl eq_refl)
      as [_ Hhttp].
    refine (proj1 (Hhttp eq_refl
              (PyDict [("status", PyInt 200); ("body", PyBytes "ok")])
              ["lifespan.startup"; "http.request"]
              ["lifespan.startup"; "http.request"; "lifespan.shutdown"]
              eq_refl _)).
    exists false. split; [reflexivity | discriminate].
Defined.

(** C2: when the lifespan mode is not "off", the first call of an invocation
    enters the lifespan scope, so it comes before any HTTP or WebSocket
    cycle. If entering raises, nothing else is called and the world is the
    one the entry left. If it returns, the scope is exited exactly once on
    every path: the calls after the entry are some calls that are no
    lifespan calls, then the exit, then calls that are neither lifespan
    calls nor cycles. In particular, when the HTTP or WebSocket cycle raises
    [e], the exit is called on [e] and is the last call of the invocation.
    On every path the exit is [LifespanCycle]'s own: the classification and
    the cycle run in the world the entry left, the exit runs on the
    exception of the block in the world the block left, the world it leaves
    is the final one, and what it answers decides with the block what the
    caller gets. *)
Theorem lifespan_scope_brackets_cycles
  {ASGIApp W Backend : Type} (E : Collaborators ASGIApp W Backend)
  (self : Mangum ASGIApp) (event context : pyval) (w : W) :
  lifespan self <> "off" ->
  (exists rest,
    calls E self event context w = CallLifespanEnter (lifespan self) :: rest
    /\ match LifespanCycle_enter E (app self) (lifespan self) w with
       | (Raise e, w1) =>
         rest = [] /\ outcome E self event context w = Raise e
         /\ final_world E self event context w = w1
       | (Ok _, _) =>
         exists mid exc post,
           rest = mid ++ CallLifespanExit (lifespan self) exc :: post
           /\ forallb (fun c => negb (is_lifespan_call c)) mid = true
           /\ forallb (fun c => negb (is_lifespan_call c || is_cycle_call c))
                post = true
       end)
  /\ (forall w1 h e w2,
       LifespanCycle_enter E (app self) (lifespan self) w = (Ok tt, w1) ->
       from_trigger E event context (handler_kwargs self) = Ok h ->
       (isinstance_WsRequest (Handler.request h) = false ->
        HTTPCycle_call E (Handler.request h) (app self) (Handler.body h) w1
          = (Raise e, w2) ->
        calls E self event context w =
          [CallLifespanEnter (lifespan self); CallFromTrigger event;
           CallHTTPCycle (Handler.request h) (Handler.body h);
           CallLifespanExit (lifespan self) (Some e)])
       /\ (isinstance_WsRequest (Handler.request h) = true ->
           forall ws,
           WebSocket_new E (websocket_args self h) = Ok ws ->
           WebSocketCycle_call E (Handler.request h) (Handler.message_type h)
             (Handler.connection_id h) ws (app self) (Handler.body h) w1
             = (Raise e, w2) ->
           calls E self event context w =
             [CallLifespanEnter (lifespan self); CallFromTrigger event;
              CallWebSocket (websocket_args self h);
              CallWebSocketCycle (Handler.request h) (Handler.body h);
              CallLifespanExit (lifespan self) (Some e)]))
  /\ (forall w1,
       LifespanCycle_enter E (app self) (lifespan self) w = (Ok tt, w1) ->
       (forall e,
          from_trigger E event context (handler_kwargs self) = Raise e ->
          final_world E self event context w
          = snd (LifespanCycle_exit E (app self) (lifespan self) (Some e) w1)
          /\ outcome E self event context w
             = after_raise "handler" e
                 (fst (LifespanCycle_exit E (app self) (lifespan self)
                         (Some e) w1)))
       /\ (forall h e,
           from_trigger E event context (handler_kwargs self) = Ok h ->
           isinstance_WsRequest (Handler.request h) = true ->
           WebSocket_new E (websocket_args self h) = Raise e ->
           final_world E self event context w
           = snd (LifespanCycle_exit E (app self) (lifespan self) (Some e) w1)
           /\ outcome E self event context w
              = after_raise "response" e
                  (fst (LifespanCycle_exit E (app self) (lifespan self)
                          (Some e) w1)))
       /\ (forall h blk w2,
           from_trigger E event context (handler_kwargs self) = Ok h ->
           cycle_gives E self h w1 blk w2 ->
           final_world E self event context w
           = snd (LifespanCycle_exit E (app self) (lifespan self)
                    (exc_of blk) w2)
           /\ outcome E self event context w
              = match blk with
                | Ok r =>
                  after_return (Handler.transform_response h r)
                    (fst (LifespanCycle_exit E (app self) (lifespan self)
                            None w2))
                | Raise e =>
                  after_raise "response" e
                    (fst (LifespanCycle_exit E (app self) (lifespan self)
                            (Some e) w2))
                end)).
Proof.
  intros Hmode. apply String.eqb_neq in Hmode. split; [|split].
  - unfold_call. rewrite Hmode. norm_call. split_call.
    all: eexists; split; [reflexivity|].
    all: try (repeat split; reflexivity).
    all: apply closes_scope_split; cbn; rewrite ?String.eqb_refl; reflexivity.
  - intros w1 h e w2 Henter Hft.
    split; intros; run_call; split_call; reflexivity.
  - intros w1 Henter. split; [|split].
    + intros e Hft.
      destruct (LifespanCycle_exit E (app self) (lifespan self) (Some e) w1)
        as [[[|]|e'] w3] eqn:Hexit; run_call; auto.
    + intros h e Hft Hreq Hws.
      destruct (LifespanCycle_exit E (app self) (lifespan self) (Some e) w1)
        as [[[|]|e'] w3] eqn:Hexit; run_call; auto.
    + intros h blk w2 Hft Hcycle. unfold cycle_gives in Hcycle.
      destruct (isinstance_WsRequest (Handler.request h)) eqn:Hreq;
        [destruct Hcycle as (ws & Hws & Hcycle)|];
        destruct blk as [r|e]; cbn [exc_of];
        match goal with
        | |- context [LifespanCycle_exit E ?a ?m ?x ?v] =>
          destruct (LifespanCycle_exit E a m x v) as [[[|]|e'] w3] eqn:Hexit
        end;
        run_call; cbn [after_return after_raise];
        try destruct (Handler.transform_response h r); auto.
Qed.

(** An HTTP request whose cycle raises, lifespan mode "auto": the scope is
    exited on the exception, the application receives the shutdown signal
    after the request, and the exception reaches the caller. *)
Lemma lifespan_scope_brackets_cycles_witness :
  calls Example.collaborators
    (Example.adapter Example.raising_app "auto" None None)
    Example.http_event PyNone []
  = [CallLifespanEnter "auto"; CallFromTrigger Example.http_event;
     CallHTTPCycle (HttpRequest Example.http_event) (PyBytes "");
     CallLifespanExit "auto" (Some Example.boom)]
  /\ final_world Example.collaborators
       (Example.adapter Example.raising_app "auto" None None)
       Example.http_event PyNone []
     = ["lifespan.startup"; "http.request"; "lifespan.shutdown"]
  /\ outcome Example.collaborators
       (Example.adapter Example.raising_app "auto" None None)
       Example.http_event PyNone []
     = Raise Example.boom.
Proof.
  assert (Hmode : "auto" <> "off") by discriminate.
  destruct (lifespan_scope_brackets_cycles Example.collaborators
              (Example.adapter Example.raising_app "auto" None None)
              Example.http_event PyNone [] Hmode) as [_ [H H']].
  destruct (H ["lifespan.startup"] (Example.http_handler Example.http_event)
              Example.boom ["lifespan.startup"; "http.request"]
              eq_refl eq_refl) as [Hhttp _].
  destruct (H' ["lifespan.startup"] eq_refl) as [_ [_ Hblk]].
  destruct (Hblk (Example.http_handler Example.http_event)
              (Raise Example.boom) ["lifespan.startup"; "http.request"]
              eq_refl eq_refl) as [Hworld Hout].
  split; [exact (Hhttp eq_refl eq_refl) | split; [exact Hworld | exact Hout]].
Defined.

(** C4: with lifespan mode "off" an invocation makes no lifespan call,
    neither entry (startup) nor exit (shutdown), whatever the collaborators
    do and so whether the cycle returns or raises; what the lifespan cycle
    would do has no bearing on the invocation. *)
Theorem lifespan_off_sends_no_signal
  {ASGIApp W Backend : Type} (E : Collaborators ASGIApp W Backend)
  (self : Mangum ASGIApp) (event context : pyval) (w : W) :
  lifespan self = "off" ->
  filter is_lifespan_call (calls E self event context w) = []
  /\ (forall enter' exit',
       invoke (with_LifespanCycle_exit (with_LifespanCycle_enter E enter')
                 exit')
              self event context w
       = invoke E self event context w).
Proof.
  intros Hoff. split.
  - run_call. cbn [String.eqb Ascii.eqb Bool.eqb negb]. norm_call.
    split_call; reflexivity.
  - intros enter' exit'. run_call.
    cbn [String.eqb Ascii.eqb Bool.eqb negb with_LifespanCycle_enter
         with_LifespanCycle_exit
         from_trigger WebSocket_new WebSocketCycle_call HTTPCycle_call].
    reflexivity.
Qed.

(** An HTTP request whose cycle raises, lifespan mode "off": the
    application saw the request and nothing else. *)
Lemma lifespan_off_sends_no_signal_witness :
  filter is_lifespan_call
    (calls Example.collaborators
       (Example.adapter Example.raising_app "off" None None)
       Example.http_event PyNone []) = []
  /\ final_world Example.collaborators
       (Example.adapter Example.raising_app "off" None None)
       Example.http_event PyNone [] = ["http.request"].
Proof.
  split; [|reflexivity].
  exact (proj1 (lifespan_off_sends_no_signal Example.collaborators
                  (Example.adapter Example.raising_app "off" None None)
                  Example.http_event PyNone [] eq_refl)).
Defined.

(** C3, as stated, fails: with lifespan mode "auto" the lifespan cycle is
    entered, and the application receives the startup signal, before the
    event is found to be unrecognized. *)
Lemma unrecognized_event_after_lifespan_startup :
  ~ fails_before_any_cycle Example.collaborators Example.recognize
      (Example.adapter Example.good_app "auto" None None)
      Example.unknown_event PyNone [].
Proof.
  unfold fails_before_any_cycle. intros H.
  destruct (H eq_refl) as [_ Hcalls]. vm_compute in Hcalls. discriminate.
Qed.

(** C3, amended: for an unrecognized event no HTTP or WebSocket cycle runs.
    With lifespan mode "off" the classification is the only call and its
    ConfigurationError reaches the caller. With any other mode the lifespan
    scope is entered first; when entering returned and the exit neither
    raises nor suppresses, the calls are the entry, the classification and
    the exit on that ConfigurationError, which reaches the caller. *)
Theorem unrecognized_event_fails
  {ASGIApp W Backend : Type} (E : Collaborators ASGIApp W Backend)
  (recognize : pyval -> pyval -> list (string * pyval) -> option Handler.t)
  (self : Mangum ASGIApp) (event context : pyval) (w : W) :
  recognize event context (handler_kwargs self) = None ->
  filter is_cycle_call
    (calls (with_from_trigger E (from_trigger_spec recognize))
       self event context w) = []
  /\ (lifespan self = "off" ->
      outcome (with_from_trigger E (from_trigger_spec recognize))
        self event context w = Raise unrecognized_trigger
      /\ calls (with_from_trigger E (from_trigger_spec recognize))
           self event context w = [CallFromTrigger event]
      /\ final_world (with_from_trigger E (from_trigger_spec recognize))
           self event context w = w)
  /\ (lifespan self <> "off" ->
      (exists rest,
        calls (with_from_trigger E (from_trigger_spec recognize))
          self event context w
        = CallLifespanEnter (lifespan self) :: rest)
      /\ forall w1 w2,
        scope_entered E self w w1 ->
        scope_left E self (Some unrecognized_trigger) w1 w2 ->
        outcome (with_from_trigger E (from_trigger_spec recognize))
          self event context w = Raise unrecognized_trigger
        /\ calls (with_from_trigger E (from_trigger_spec recognize))
             self event context w
           = [CallLifespanEnter (lifespan self); CallFromTrigger event;
              CallLifespanExit (lifespan self) (Some unrecognized_trigger)]
        /\ final_world (with_from_trigger E (from_trigger_spec recognize))
             self event context w = w2).
Proof.
  intros Hrec.
  assert (Hft : from_trigger (with_from_trigger E (from_trigger_spec recognize))
                  event context (handler_kwargs self)
                = Raise unrecognized_trigger).
  { cbn [with_from_trigger from_trigger]. unfold from_trigger_spec.
    now rewrite Hrec. }
  split; [|split].
  - run_call. split_call; reflexivity.
  - intros Hoff. apply String.eqb_eq in Hoff. run_call. auto.
  - intros Hmode. apply String.eqb_neq in Hmode. split.
    + run_call. split_call; eexists; reflexivity.
    + unfold scope_entered, scope_left. rewrite Hmode.
      intros w1 w2 Henter (b & Hexit & Hb).
      destruct b; [specialize (Hb eq_refl); discriminate|].
      assert (Henter' :
        LifespanCycle_enter (with_from_trigger E (from_trigger_spec recognize))
          (app self) (lifespan self) w = (Ok tt, w1)) by exact Henter.
      assert (Hexit' :
        LifespanCycle_exit (with_from_trigger E (from_trigger_spec recognize))
          (app self) (lifespan self) (Some unrecognized_trigger) w1
        = (Ok false, w2)) by exact Hexit.
      run_call. auto.
Qed.

(** An event with no known shape, lifespan mode "off" and mode "auto". *)
Lemma unrecognized_event_fails_witness :
  outcome Example.collaborators
    (Example.adapter Example.good_app "off" None None)
    Example.unknown_event PyNone [] = Raise unrecognized_trigger
  /\ outcome Example.collaborators
       (Example.adapter Example.good_app "auto" None None)
       Example.unknown_event PyNone [] = Raise unrecognized_trigger.
Proof.
  split.
  - destruct (unrecognized_event_fails Example.collaborators Example.recognize
                (Example.adapter Example.good_app "off" None None)
                Example.unknown_event PyNone [] eq_refl) as [_ [Hoff _]].
    exact (proj1 (Hoff eq_refl)).
  - assert (Hmode : "auto" <> "off") by discriminate.
    destruct (unrecognized_event_fails Example.collaborators Example.recognize
                (Example.adapter Example.good_app "auto" None None)
                Example.unknown_event PyNone [] eq_refl) as [_ [_ Hon]].
    destruct (Hon Hmode) as [_ H].
    refine (proj1 (H ["lifespan.startup"]
                     ["lifespan.startup"; "lifespan.shutdown"] eq_refl _)).
    exists false. split; [reflexivity | discriminate].
Defined.

(** C5: with lifespan mode "on", when the application's startup handshake
    fails (it reports a failure or the wait times out), entering the lifespan
    scope is the only call of the invocation: no HTTP or WebSocket cycle
    runs, and the caller gets a LifespanError. *)
Theorem failing_startup_aborts_in_on_mode
  {ASGIApp W Backend : Type} (E : Collaborators ASGIApp W Backend)
  (startup : ASGIApp -> W -> Acknowledgement * W)
  (self : Mangum ASGIApp) (event context : pyval) (w : W) :
  lifespan self = "on" ->
  after_startup (fst (startup (app self) w)) = FAILED ->
  raises_with is_LifespanError
    (outcome (with_LifespanCycle_enter E (LifespanCycle_enter_spec startup))
       self event context w) = true
  /\ calls (with_LifespanCycle_enter E (LifespanCycle_enter_spec startup))
       self event context w = [CallLifespanEnter "on"]
  /\ filter is_cycle_call
       (calls (with_LifespanCycle_enter E (LifespanCycle_enter_spec startup))
          self event context w) = []
  /\ final_world
       (with_LifespanCycle_enter E (LifespanCycle_enter_spec startup))
       self event context w = snd (startup (app self) w).
Proof.
  intros Hon Hfail.
  assert (Henter :
    LifespanCycle_enter
      (with_LifespanCycle_enter E (LifespanCycle_enter_spec startup))
      (app self) "on" w
    = (Raise (LifespanError "Lifespan startup failed."),
       snd (startup (app self) w))).
  { cbn [with_LifespanCycle_enter LifespanCycle_enter].
    unfold LifespanCycle_enter_spec.
    destruct (startup (app self) w) as [ack w']. cbn [fst snd] in *.
    now rewrite Hfail. }
  run_call. cbn [String.eqb Ascii.eqb Bool.eqb negb]. norm_call.
  rewrite Henter. norm_call. auto.
Qed.

(** An application that answers the startup signal with a failure. *)
Lemma failing_startup_aborts_in_on_mode_witness :
  calls
    (with_LifespanCycle_enter Example.collaborators
       (LifespanCycle_enter_spec Example.startup))
    (Example.adapter Example.failing_startup_app "on" None None)
    Example.http_event PyNone []
  = [CallLifespanEnter "on"].
Proof.
  destruct (failing_startup_aborts_in_on_mode Example.collaborators
              Example.startup
              (Example.adapter Example.failing_startup_app "on" None None)
              Example.http_event PyNone [] eq_refl eq_refl)
    as [_ [H _]].
  exact H.
Defined.

(** C7: a WebSocket event handled by an adapter that has no [dsn] fails with
    the ConfigurationError of the missing connection string, and no cycle
    runs (the lifespan scope, when there is one, having been entered and
    being left without raising or suppressing). *)
Theorem websocket_without_dsn_fails
  {ASGIApp W : Type} (E : Collaborators ASGIApp W SessionStore)
  (self : Mangum ASGIApp) (event context : pyval) (w w1 w2 : W)
  (h : Handler.t) :
  dsn self = None ->
  scope_entered E self w w1 ->
  from_trigger E event context (handler_kwargs self) = Ok h ->
  isinstance_WsRequest (Handler.request h) = true ->
  scope_left E self (Some missing_dsn) w1 w2 ->
  outcome (with_WebSocket_new E WebSocket_spec) self event context w
    = Raise missing_dsn
  /\ raises_with is_ConfigurationError
       (outcome (with_WebSocket_new E WebSocket_spec) self event context w)
     = true
  /\ filter is_cycle_call
       (calls (with_WebSocket_new E WebSocket_spec) self event context w) = []
  /\ final_world (with_WebSocket_new E WebSocket_spec) self event context w
     = w2.
Proof.
  unfold scope_entered, scope_left. intros Hdsn Henter Hft Hreq Hexit.
  assert (Hft' : from_trigger (with_WebSocket_new E WebSocket_spec)
                   event context (handler_kwargs self) = Ok h) by exact Hft.
  assert (Hws : WebSocket_new (with_WebSocket_new E WebSocket_spec)
                  (websocket_args self h) = Raise missing_dsn).
  { cbn [with_WebSocket_new WebSocket_new]. unfold WebSocket_spec.
    cbn [websocket_args WebSocket.dsn]. now rewrite Hdsn. }
  destruct (String.eqb (lifespan self) "off") eqn:Hmode.
  - subst w2 w1. clear Hft Hdsn. run_call. auto.
  - destruct Hexit as (b & Hexit & Hb).
    destruct b; [specialize (Hb eq_refl); discriminate|].
    assert (Henter' :
      LifespanCycle_enter (with_WebSocket_new E WebSocket_spec)
        (app self) (lifespan self) w = (Ok tt, w1)) by exact Henter.
    assert (Hexit' :
      LifespanCycle_exit (with_WebSocket_new E WebSocket_spec)
        (app self) (lifespan self) (Some missing_dsn) w1 = (Ok false, w2))
      by exact Hexit.
    clear Hft Hdsn Henter Hexit. run_call. auto.
Qed.

(** A WebSocket message for an adapter built without [dsn]. *)
Lemma websocket_without_dsn_fails_witness :
  outcome (with_WebSocket_new Example.collaborators WebSocket_spec)
    (Example.adapter Example.good_app "auto" None None)
    Example.ws_event PyNone []
  = Raise missing_dsn.
Proof.
  refine (proj1 (websocket_without_dsn_fails Example.collaborators
                   (Example.adapter Example.good_app "auto" None None)
                   Example.ws_event PyNone [] ["lifespan.startup"]
                   ["lifespan.startup"; "lifespan.shutdown"]
                   (Example.ws_handler Example.ws_event)
                   eq_refl eq_refl eq_refl eq_refl _)).
  exists false. split; [reflexivity | discriminate].
Defined.

(** C8: for a WebSocket event, [WebSocket] is called once, with the
    instance's [dsn], region and hooks, and with the instance's
    [api_gateway_endpoint_url] when that is a non-empty string; when it is
    None or empty, with the handler's. The handle is the one [WebSocket]
    returns on these arguments: when it raises there, its exception is what
    the caller gets, and when it returns a handle, the WebSocket cycle runs
    on that handle and decides the world and what the caller gets (the
    lifespan scope, when there is one, being left without raising or
    suppressing). *)
Theorem websocket_endpoint_url_choice
  {ASGIApp W Backend : Type} (E : Collaborators ASGIApp W Backend)
  (self : Mangum ASGIApp) (event context : pyval) (w w1 : W)
  (h : Handler.t) :
  scope_entered E self w w1 ->
  from_trigger E event context (handler_kwargs self) = Ok h ->
  isinstance_WsRequest (Handler.request h) = true ->
  exists args,
    filter is_websocket_new (calls E self event context w)
      = [CallWebSocket args]
    /\ (forall u, api_gateway_endpoint_url self = Some u -> u <> "" ->
        WebSocket.api_gateway_endpoint_url args = Some u)
    /\ (api_gateway_endpoint_url self = None
        \/ api_gateway_endpoint_url self = Some "" ->
        WebSocket.api_gateway_endpoint_url args
        = Handler.api_gateway_endpoint_url h)
    /\ WebSocket.dsn args = dsn self
    /\ WebSocket.api_gateway_region_name args = api_gateway_region_name self
    /\ WebSocket.connect_hook args = connect_hook self
    /\ WebSocket.disconnect_hook args = disconnect_hook self
    /\ (forall e w2,
        WebSocket_new E args = Raise e ->
        scope_left E self (Some e) w1 w2 ->
        outcome E self event context w = Raise e
        /\ final_world E self event context w = w2)
    /\ (forall ws blk w2 w3,
        WebSocket_new E args = Ok ws ->
        WebSocketCycle_call E (Handler.request h) (Handler.message_type h)
          (Handler.connection_id h) ws (app self) (Handler.body h) w1
          = (blk, w2) ->
        scope_left E self (exc_of blk) w2 w3 ->
        final_world E self event context w = w3
        /\ outcome E self event context w
           = match blk with
             | Ok r => Handler.transform_response h r
             | Raise e => Raise e
             end).
Proof.
  unfold scope_entered, scope_left. intros Henter Hft Hreq.
  exists (websocket_args self h).
  split; [|split; [|split; [|split; [|split; [|split; [|split; [|split]]]]]]];
    try reflexivity.
  - destruct (String.eqb (lifespan self) "off") eqn:Hmode.
    + run_call. split_call; reflexivity.
    + run_call. split_call; reflexivity.
  - intros u Hu Hne. cbn [websocket_args WebSocket.api_gateway_endpoint_url].
    unfold py_or. rewrite Hu. cbn [truthy_opt].
    apply String.eqb_neq in Hne. now rewrite Hne.
  - intros [Hu | Hu]; cbn [websocket_args WebSocket.api_gateway_endpoint_url];
      unfold py_or; rewrite Hu; reflexivity.
  - intros e w2 Hws Hexit.
    destruct (String.eqb (lifespan self) "off") eqn:Hmode.
    + subst w1 w2. run_call. auto.
    + destruct Hexit as (b & Hexit & Hb).
      destruct b; [specialize (Hb eq_refl); discriminate|].
      run_call. auto.
  - intros ws blk w2 w3 Hws Hcycle Hexit.
    destruct (String.eqb (lifespan self) "off") eqn:Hmode.
    + subst w1 w3. destruct blk as [r|e]; run_call;
        try destruct (Handler.transform_response h r); auto.
    + destruct Hexit as (b & Hexit & Hb).
      destruct blk as [r|e]; cbn [exc_of] in *.
      * destruct b; run_call;
          destruct (Handler.transform_response h r); auto.
      * destruct b; [specialize (Hb eq_refl); discriminate|].
        run_call. auto.
Qed.

(** A WebSocket message for an adapter with a configured endpoint: the
    handle holds the configured endpoint. *)
Lemma websocket_endpoint_url_choice_witness :
  exists args,
    filter is_websocket_new
      (calls Example.collaborators
         (Example.adapter Example.good_app "off" (Some "sqlite://db")
            (Some "https://configured.example"))
         Example.ws_event PyNone [])
    = [CallWebSocket args]
    /\ WebSocket.api_gateway_endpoint_url args
       = Some "https://configured.example"
    /\ WebSocket_new Example.collaborators args
       = Ok (mkSessionStore "sqlite://db"
               (Some "https://configured.example") None PyNone PyNone).
Proof.
  destruct (websocket_endpoint_url_choice Example.collaborators
              (Example.adapter Example.good_app "off" (Some "sqlite://db")
                 (Some "https://configured.example"))
              Example.ws_event PyNone [] []
              (Example.ws_handler Example.ws_event)
              eq_refl eq_refl eq_refl)
    as (args & Hcalls & Hurl & _ & Hdsn & Hregion & Hconnect & Hdisconnect
        & _).
  exists args. split; [exact Hcalls|].
  assert (Hu : WebSocket.api_gateway_endpoint_url args
               = Some "https://configured.example")
    by (apply Hurl; [reflexivity | discriminate]).
  split; [exact Hu|].
  destruct args as [d u r c dc]. cbn in Hu, Hdsn, Hregion, Hconnect,
    Hdisconnect. subst. reflexivity.
Defined.

(** * Further properties *)

(** ** The constructor *)

(** X1: the constructor returns an instance exactly when [lifespan] is one
    of the three modes and each hook is falsy or callable; the instance then
    holds the arguments as they were given. *)
Theorem init_accepts_exactly
  {ASGIApp : Type} (a : ASGIApp) (mode : string)
  (dsn_arg url_arg region_arg : option string)
  (connect disconnect : pyval) (kwargs : list (string * pyval)) :
  ((exists self,
      __init__ a mode dsn_arg url_arg region_arg connect disconnect kwargs
      = Ok self)
   <-> (In mode ["auto"; "on"; "off"]
        /\ (truthy connect = false \/ callable connect = true)
        /\ (truthy disconnect = false \/ callable disconnect = true)))
  /\ (forall self,
      __init__ a mode dsn_arg url_arg region_arg connect disconnect kwargs
      = Ok self ->
      app self = a /\ lifespan self = mode /\ dsn self = dsn_arg
      /\ api_gateway_endpoint_url self = url_arg
      /\ api_gateway_region_name self = region_arg
      /\ handler_kwargs self = kwargs
      /\ connect_hook self = connect /\ disconnect_hook self = disconnect).
Proof.
  unfold __init__; cbn [lifespan]. split; [split|].
  - intros [self H].
    destruct (in_choices mode) eqn:Hm; cbn [negb] in H; [|discriminate].
    apply in_choices_In in Hm. split; [exact Hm|].
    destruct (truthy connect) eqn:Ht1, (callable connect) eqn:Hc1;
      cbn [negb andb] in H; try discriminate;
      destruct (truthy disconnect) eqn:Ht2, (callable disconnect) eqn:Hc2;
      cbn [negb andb] in H; try discriminate; auto.
  - intros (Hm & H1 & H2). apply in_choices_In in Hm. rewrite Hm. cbn [negb].
    destruct H1 as [-> | ->], H2 as [-> | ->];
      rewrite ?andb_false_r; cbn [negb andb]; eauto.
  - intros self H.
    destruct (negb (in_choices mode)); [discriminate|].
    destruct (truthy connect && negb (callable connect)); [discriminate|].
    destruct (truthy disconnect && negb (callable disconnect));
      [discriminate|].
    injection H as <-. cbn. repeat split.
Qed.

(** X2: with a valid [lifespan], an invalid [connect_hook] is the error
    reported, whatever [disconnect_hook] is; the error of [disconnect_hook]
    is reported only when [connect_hook] passes. *)
Theorem init_reports_first_invalid_hook
  {ASGIApp : Type} (a : ASGIApp) (mode : string)
  (dsn_arg url_arg region_arg : option string)
  (connect disconnect : pyval) (kwargs : list (string * pyval)) :
  In mode ["auto"; "on"; "off"] ->
  (truthy connect = true -> callable connect = false ->
   __init__ a mode dsn_arg url_arg region_arg connect disconnect kwargs
   = Raise (Exception "Invalid connect_hook supplied. Must be a callable"))
  /\ (truthy connect = false \/ callable connect = true ->
      truthy disconnect = true -> callable disconnect = false ->
      __init__ a mode dsn_arg url_arg region_arg connect disconnect kwargs
      = Raise (Exception "Invalid disconnect_hook supplied. Must be callable")).
Proof.
  intros Hm. apply in_choices_In in Hm.
  unfold __init__; cbn [lifespan]; rewrite Hm; cbn [negb]. split.
  - intros -> ->. reflexivity.
  - intros [-> | ->] -> ->; rewrite ?andb_false_r; reflexivity.
Qed.

(** Two invalid hooks, then a callable [connect_hook] with an invalid
    [disconnect_hook]. *)
Lemma init_reports_first_invalid_hook_witness :
  __init__ Example.good_app "on" None None None (PyInt 1) (PyStr "x") []
  = Raise (Exception "Invalid connect_hook supplied. Must be a callable")
  /\ __init__ Example.good_app "on" None None None
       (PyFunction "on_connect") (PyStr "x") []
     = Raise (Exception "Invalid disconnect_hook supplied. Must be callable").
Proof.
  assert (Hin : In "on" ["auto"; "on"; "off"]) by (simpl; auto).
  split.
  - exact (proj1 (init_reports_first_invalid_hook Example.good_app "on"
                    None None None (PyInt 1) (PyStr "x") [] Hin)
             eq_refl eq_refl).
  - exact (proj2 (init_reports_first_invalid_hook Example.good_app "on"
                    None None None (PyFunction "on_connect") (PyStr "x") []
                    Hin)
             (or_intror eq_refl) eq_refl eq_refl).
Defined.

(** X11: an adapter the constructor returned has one of the three modes.
    In mode "off" an invocation makes no lifespan call and does not depend
    on what [LifespanCycle] would do. In the modes "auto" and "on" it first
    runs [LifespanCycle]'s entry on the initial world: when that raises, its
    exception is the result and nothing else is called; when it returns,
    exactly one exit follows, run in the world that the same invocation
    without lifespan leaves from the world of the entry, the world the exit
    leaves is the final one, and the exception it raises, if any, is the
    result. *)
Theorem constructed_adapter_lifespan_modes
  {ASGIApp W Backend : Type} (E : Collaborators ASGIApp W Backend)
  (a : ASGIApp) (mode : string) (dsn_arg url_arg region_arg : option string)
  (connect disconnect : pyval) (kwargs : list (string * pyval))
  (self : Mangum ASGIApp) (event context : pyval) (w : W) :
  __init__ a mode dsn_arg url_arg region_arg connect disconnect kwargs
  = Ok self ->
  (mode = "off"
   /\ filter is_lifespan_call (calls E self event context w) = []
   /\ forall enter' exit',
       invoke (with_LifespanCycle_exit (with_LifespanCycle_enter E enter')
                 exit')
              self event context w
       = invoke E self event context w)
  \/ ((mode = "auto" \/ mode = "on")
      /\ exists rest,
        calls E self event context w = CallLifespanEnter mode :: rest
        /\ match LifespanCycle_enter E a mode w with
           | (Raise e, w1) =>
             invoke E self event context w
             = (Raise e, mkState w1 [CallLifespanEnter mode])
           | (Ok _, w1) =>
             exists exc,
               filter is_lifespan_call rest = [CallLifespanExit mode exc]
               /\ final_world E self event context w
                  = snd (LifespanCycle_exit E a mode exc
                           (final_world E (without_lifespan self)
                              event context w1))
               /\ (forall e',
                   fst (LifespanCycle_exit E a mode exc
                          (final_world E (without_lifespan self)
                             event context w1)) = Raise e' ->
                   outcome E self event context w = Raise e')
           end).
Proof.
  intros Hinit.
  assert (Hm : in_choices mode = true
               /\ self = mkMangum a mode dsn_arg url_arg region_arg kwargs
                           connect disconnect).
  { unfold __init__ in Hinit; cbn [lifespan] in Hinit.
    destruct (in_choices mode); cbn [negb] in Hinit; [|discriminate].
    destruct (truthy connect && negb (callable connect)); [discriminate|].
    destruct (truthy disconnect && negb (callable disconnect));
      [discriminate|].
    injection Hinit as <-. split; reflexivity. }
  destruct Hm as [Hm ->]. apply in_choices_In in Hm.
  assert (Hcases : mode = "auto" \/ mode = "on" \/ mode = "off").
  { simpl in Hm. intuition auto. }
  assert (Hsplit : mode = "off"
                   \/ ((mode = "auto" \/ mode = "on")
                       /\ String.eqb mode "off" = false)).
  { destruct Hcases as [-> | [-> | ->]]; auto. }
  destruct Hsplit as [-> | [Hon Hmode]]; [left | right].
  - split; [reflexivity|]. split.
    + unfold_call. cbn [lifespan String.eqb Ascii.eqb Bool.eqb negb].
      norm_call. split_call; reflexivity.
    + intros enter' exit'. unfold_call.
      cbn [lifespan String.eqb Ascii.eqb Bool.eqb negb
           with_LifespanCycle_enter with_LifespanCycle_exit
           from_trigger WebSocket_new WebSocketCycle_call HTTPCycle_call].
      reflexivity.
  - split; [exact Hon|]. unfold without_lifespan. unfold_call.
    cbn [lifespan app dsn api_gateway_endpoint_url api_gateway_region_name
         handler_kwargs connect_hook disconnect_hook
         String.eqb Ascii.eqb Bool.eqb negb].
    rewrite Hmode. norm_call. unfold websocket_args.
    cbn [lifespan app dsn api_gateway_endpoint_url api_gateway_region_name
         handler_kwargs connect_hook disconnect_hook].
    destruct (LifespanCycle_enter E a mode w) as [[u|e] w1] eqn:Henter;
      norm_call; [|eexists; split; reflexivity].
    split_call; eexists; (split; [reflexivity|]); eexists;
      (split; [reflexivity|]);
      match goal with
      | H : LifespanCycle_exit E _ _ _ _ = _ |- _ => rewrite H
      end; cbn [fst snd]; (split; [reflexivity|]);
      intros e' He'; try discriminate He'; injection He' as <-; reflexivity.
Qed.

(** The request of the example in mode "auto": the first call is the entry. *)
Lemma constructed_adapter_lifespan_modes_witness :
  exists rest,
    calls Example.collaborators
      (Example.adapter Example.good_app "auto" None None)
      Example.http_event PyNone []
    = CallLifespanEnter "auto" :: rest.
Proof.
  destruct (constructed_adapter_lifespan_modes Example.collaborators
              Example.good_app "auto" None None None PyNone PyNone []
              (Example.adapter Example.good_app "auto" None None)
              Example.http_event PyNone [] eq_refl)
    as [[Hoff _] | [_ (rest & Hcalls & _)]].
  - discriminate Hoff.
  - exists rest. exact Hcalls.
Defined.

(** ** The entry point *)

Lemma transform_only_last_split (l : list call) :
  transform_only_last l = true ->
  forall pre c post,
    l = pre ++ c :: post -> is_transform_call c = true -> post = [].
Proof.
  induction l as [|x l IH]; intros H pre c post Heq Hc.
  - destruct pre; discriminate.
  - destruct l as [|y l'].
    + destruct pre as [|p pre]; [now injection Heq as _ <-|].
      injection Heq as _ Heq. destruct pre; discriminate.
    + cbn [transform_only_last] in H. apply andb_true_iff in H as [Hx Hl].
      destruct pre as [|p pre].
      * injection Heq as <- _. rewrite Hc in Hx. discriminate.
      * injection Heq as _ Heq. exact (IH Hl pre c post Heq Hc).
Qed.

(** X3: an invocation classifies the event at most once, builds at most
    one session store handle, runs at most one cycle, and never both builds
    a handle and runs the HTTP cycle, whatever the collaborators do. *)
Theorem one_event_one_cycle
  {ASGIApp W Backend : Type} (E : Collaborators ASGIApp W Backend)
  (self : Mangum ASGIApp) (event context : pyval) (w : W) :
  length (filter is_from_trigger_call (calls E self event context w)) <= 1
  /\ length (filter is_websocket_new (calls E self event context w)) <= 1
  /\ length (filter is_cycle_call (calls E self event context w)) <= 1
  /\ (existsb is_websocket_new (calls E self event context w)
      && existsb is_http_cycle_call (calls E self event context w)) = false.
Proof.
  unfold_call. split_call; cbn; auto.
Qed.

(** X4: the response transformation, when it is called, is the last call of
    the invocation; it is called on the response that the one cycle of the
    invocation returned, run in the world the lifespan entry left; the
    lifespan scope, when there is one, has been exited by then without
    raising, which gives the final world; and the result of the
    transformation is what the caller gets. *)
Theorem transform_response_is_final
  {ASGIApp W Backend : Type} (E : Collaborators ASGIApp W Backend)
  (self : Mangum ASGIApp) (event context : pyval) (w : W) :
  (forall pre c post,
     calls E self event context w = pre ++ c :: post ->
     is_transform_call c = true -> post = [])
  /\ (forall r,
      In (CallTransformResponse r) (calls E self event context w) ->
      exists h w1 w2,
        from_trigger E event context (handler_kwargs self) = Ok h
        /\ scope_entered E self w w1
        /\ cycle_gives E self h w1 (Ok r) w2
        /\ scope_left E self None w2 (final_world E self event context w)
        /\ outcome E self event context w = Handler.transform_response h r
        /\ length (filter is_cycle_call (calls E self event context w)) = 1).
Proof.
  split.
  - apply transform_only_last_split. unfold_call. split_call; reflexivity.
  - intros r. destruct (String.eqb (lifespan self) "off") eqn:Hmode;
      unfold_call; rewrite Hmode; norm_call;
      split_call; cbn [In]; intros H;
      repeat (destruct H as [H | H]; [try discriminate H|]);
      try contradiction;
      injection H as <-;
      repeat match goal with u : unit |- _ => destruct u end;
      do 3 eexists;
      (split; [reflexivity|]);
      (split; [unfold scope_entered; rewrite Hmode;
               first [reflexivity | eassumption]|]);
      (split; [unfold cycle_gives;
               match goal with
               | Hreq : isinstance_WsRequest _ = _ |- _ => rewrite Hreq
               end;
               first [eassumption | eexists; split; eassumption]|]);
      (split; [unfold scope_left; rewrite Hmode;
               first [reflexivity
                     | eexists; split; [eassumption | reflexivity]]|]);
      split; reflexivity.
Qed.

(** X5: an exception of the HTTP or WebSocket cycle reaches the caller as it
    is, and the response transformation is not called (the lifespan scope,
    when there is one, being left without raising or suppressing). *)
Theorem cycle_error_reaches_caller
  {ASGIApp W Backend : Type} (E : Collaborators ASGIApp W Backend)
  (self : Mangum ASGIApp) (event context : pyval) (w w1 w2 w3 : W)
  (h : Handler.t) (e : exn) :
  scope_entered E self w w1 ->
  from_trigger E event context (handler_kwargs self) = Ok h ->
  (isinstance_WsRequest (Handler.request h) = false
   /\ HTTPCycle_call E (Handler.request h) (app self) (Handler.body h) w1
      = (Raise e, w2))
  \/ (isinstance_WsRequest (Handler.request h) = true
      /\ exists ws,
        WebSocket_new E (websocket_args self h) = Ok ws
        /\ WebSocketCycle_call E (Handler.request h) (Handler.message_type h)
             (Handler.connection_id h) ws (app self) (Handler.body h) w1
           = (Raise e, w2)) ->
  scope_left E self (Some e) w2 w3 ->
  outcome E self event context w = Raise e
  /\ final_world E self event context w = w3
  /\ filter is_transform_call (calls E self event context w) = [].
Proof.
  unfold scope_entered, scope_left. intros Henter Hft Hcycle Hexit.
  destruct (String.eqb (lifespan self) "off") eqn:Hmode.
  - subst w1 w3.
    destruct Hcycle as [[Hreq Hc] | [Hreq (ws & Hws & Hc)]]; run_call; auto.
  - destruct Hexit as (b & Hexit & Hb).
    destruct b; [specialize (Hb eq_refl); discriminate|].
    destruct Hcycle as [[Hreq Hc] | [Hreq (ws & Hws & Hc)]]; run_call; auto.
Qed.

(** An HTTP request whose cycle raises, lifespan mode "auto". *)
Lemma cycle_error_reaches_caller_witness :
  outcome Example.collaborators
    (Example.adapter Example.raising_app "auto" None None)
    Example.http_event PyNone []
  = Raise Example.boom.
Proof.
  refine (proj1 (cycle_error_reaches_caller Example.collaborators
                   (Example.adapter Example.raising_app "auto" None None)
                   Example.http_event PyNone [] ["lifespan.startup"]
                   ["lifespan.startup"; "http.request"]
                   ["lifespan.startup"; "http.request"; "lifespan.shutdown"]
                   (Example.http_handler Example.http_event) Example.boom
                   eq_refl eq_refl (or_introl (conj eq_refl eq_refl)) _)).
  exists false. split; [reflexivity | discriminate].
Defined.

(** X6: when [WebSocket(...)] raises, the WebSocket cycle does not run and
    the response transformation is not called; the exception reaches the
    caller (the lifespan scope, when there is one, being left without
    raising or suppressing). *)
Theorem backend_error_skips_cycle
  {ASGIApp W Backend : Type} (E : Collaborators ASGIApp W Backend)
  (self : Mangum ASGIApp) (event context : pyval) (w w1 : W)
  (h : Handler.t) (e : exn) :
  scope_entered E self w w1 ->
  from_trigger E event context (handler_kwargs self) = Ok h ->
  isinstance_WsRequest (Handler.request h) = true ->
  WebSocket_new E (websocket_args self h) = Raise e ->
  filter (fun c => is_cycle_call c || is_transform_call c)
    (calls E self event context w) = []
  /\ (forall w2,
      scope_left E self (Some e) w1 w2 ->
      outcome E self event context w = Raise e
      /\ final_world E self event context w = w2).
Proof.
  unfold scope_entered, scope_left. intros Henter Hft Hreq Hws.
  destruct (String.eqb (lifespan self) "off") eqn:Hmode.
  - subst w1. split.
    + run_call. reflexivity.
    + intros w2 ->. run_call. auto.
  - split.
    + run_call. split_call; reflexivity.
    + intros w2 (b & Hexit & Hb).
      destruct b; [specialize (Hb eq_refl); discriminate|].
      run_call. auto.
Qed.

(** A WebSocket message for an adapter built without [dsn], mode "off". *)
Lemma backend_error_skips_cycle_witness :
  filter (fun c => is_cycle_call c || is_transform_call c)
    (calls Example.collaborators
       (Example.adapter Example.good_app "off" None None)
       Example.ws_event PyNone []) = [].
Proof.
  exact (proj1 (backend_error_skips_cycle Example.collaborators
                  (Example.adapter Example.good_app "off" None None)
                  Example.ws_event PyNone [] []
                  (Example.ws_handler Example.ws_event) missing_dsn
                  eq_refl eq_refl eq_refl eq_refl)).
Defined.

(** X7: when [from_trigger] raises, whatever the exception, no session store
    handle is built, no cycle runs and the response transformation is not
    called; the exception reaches the caller (the lifespan scope, when there
    is one, being left without raising or suppressing). *)
Theorem classification_error_reaches_caller
  {ASGIApp W Backend : Type} (E : Collaborators ASGIApp W Backend)
  (self : Mangum ASGIApp) (event context : pyval) (w w1 : W) (e : exn) :
  scope_entered E self w w1 ->
  from_trigger E event context (handler_kwargs self) = Raise e ->
  filter (fun c => is_websocket_new c || is_cycle_call c
                   || is_transform_call c)
    (calls E self event context w) = []
  /\ (forall w2,
      scope_left E self (Some e) w1 w2 ->
      outcome E self event context w = Raise e
      /\ final_world E self event context w = w2).
Proof.
  unfold scope_entered, scope_left. intros Henter Hft.
  destruct (String.eqb (lifespan self) "off") eqn:Hmode.
  - subst w1. split.
    + run_call. reflexivity.
    + intros w2 ->. run_call. auto.
  - split.
    + run_call. split_call; reflexivity.
    + intros w2 (b & Hexit & Hb).
      destruct b; [specialize (Hb eq_refl); discriminate|].
      run_call. auto.
Qed.

(** A classifier that raises a TypeError, lifespan mode "off". *)
Lemma classification_error_reaches_caller_witness :
  outcome
    (with_from_trigger Example.collaborators
       (fun _ _ _ => Raise (Raised "TypeError" "unknown event")))
    (Example.adapter Example.good_app "off" None None)
    Example.unknown_event PyNone []
  = Raise (Raised "TypeError" "unknown event").
Proof.
  exact (proj1 (proj2 (classification_error_reaches_caller
                  (with_from_trigger Example.collaborators
                     (fun _ _ _ => Raise (Raised "TypeError" "unknown event")))
                  (Example.adapter Example.good_app "off" None None)
                  Example.unknown_event PyNone [] []
                  (Raised "TypeError" "unknown event")
                  eq_refl eq_refl) [] eq_refl)).
Defined.

(** X8: for an event that is not classified as a [WsRequest], the
    invocation does not depend on the WebSocket configuration of the
    adapter: two adapters with the same application, mode and handler
    arguments behave alike, whatever their [dsn], endpoint, region and
    hooks. *)
Theorem http_ignores_websocket_config
  {ASGIApp W Backend : Type} (E : Collaborators ASGIApp W Backend)
  (self self' : Mangum ASGIApp) (event context : pyval) (w : W) :
  app self' = app self ->
  lifespan self' = lifespan self ->
  handler_kwargs self' = handler_kwargs self ->
  (forall h, from_trigger E event context (handler_kwargs self) = Ok h ->
             isinstance_WsRequest (Handler.request h) = false) ->
  invoke E self' event context w = invoke E self event context w.
Proof.
  intros Happ Hmode Hkw Hhttp. unfold invoke, __call__.
  rewrite Happ, Hmode, Hkw. norm_call.
  destruct (negb (String.eqb (lifespan self) "off")); norm_call.
  - destruct (LifespanCycle_enter E (app self) (lifespan self) w)
      as [[u|e] w1]; norm_call; [|reflexivity].
    destruct (from_trigger E event context (handler_kwargs self))
      as [h|e] eqn:Hft; norm_call; [|reflexivity].
    rewrite (Hhttp h eq_refl), Happ. reflexivity.
  - destruct (from_trigger E event context (handler_kwargs self))
      as [h|e] eqn:Hft; norm_call; [|reflexivity].
    rewrite (Hhttp h eq_refl), Happ. reflexivity.
Qed.

(** An HTTP request served with and without a connection string. *)
Lemma http_ignores_websocket_config_witness :
  invoke Example.collaborators
    (Example.adapter Example.good_app "auto" (Some "sqlite://db")
       (Some "https://configured.example"))
    Example.http_event PyNone []
  = invoke Example.collaborators
      (Example.adapter Example.good_app "auto" None None)
      Example.http_event PyNone [].
Proof.
  apply (http_ignores_websocket_config Example.collaborators
           (Example.adapter Example.good_app "auto" None None)
           (Example.adapter Example.good_app "auto" (Some "sqlite://db")
              (Some "https://configured.example"))
           Example.http_event PyNone [] eq_refl eq_refl eq_refl).
  intros h H. injection H as <-. reflexivity.
Defined.

(** X9: when the exit of the lifespan scope raises, its exception is what
    the caller gets, whether the block returned or raised, and the response
    transformation is not called. *)
Theorem exit_error_overrides
  {ASGIApp W Backend : Type} (E : Collaborators ASGIApp W Backend)
  (self : Mangum ASGIApp) (event context : pyval) (w w1 : W) (e' : exn) :
  lifespan self <> "off" ->
  LifespanCycle_enter E (app self) (lifespan self) w = (Ok tt, w1) ->
  (forall exc w',
     fst (LifespanCycle_exit E (app self) (lifespan self) exc w') = Raise e') ->
  outcome E self event context w = Raise e'
  /\ filter is_transform_call (calls E self event context w) = [].
Proof.
  intros Hmode Henter Hexit. apply String.eqb_neq in Hmode.
  unfold_call. rewrite Hmode. norm_call. rewrite Henter. norm_call.
  split_call;
    match goal with
    | H : LifespanCycle_exit E _ _ ?exc ?w' = (_, _) |- _ =>
      let H' := fresh in
      pose proof (Hexit exc w') as H'; rewrite H in H'; cbn [fst] in H';
      try discriminate H'; injection H' as <-
    end; auto.
Qed.

(** A shutdown that fails after a request that was served. *)
Lemma exit_error_overrides_witness :
  outcome
    (with_LifespanCycle_exit Example.collaborators
       (fun _ _ _ w => (Raise (LifespanError "shutdown failed"), w)))
    (Example.adapter Example.good_app "auto" None None)
    Example.http_event PyNone []
  = Raise (LifespanError "shutdown failed").
Proof.
  assert (Hmode : "auto" <> "off") by discriminate.
  exact (proj1 (exit_error_overrides
                  (with_LifespanCycle_exit Example.collaborators
                     (fun _ _ _ w =>
                        (Raise (LifespanError "shutdown failed"), w)))
                  (Example.adapter Example.good_app "auto" None None)
                  Example.http_event PyNone [] ["lifespan.startup"]
                  (LifespanError "shutdown failed")
                  Hmode eq_refl (fun _ _ => eq_refl))).
Defined.

(** X10: when the exit of the lifespan scope suppresses an exception raised
    in the block, the [return] after the block raises UnboundLocalError: on
    [handler] when the classification raised, on [response] when the handle
    construction or the cycle did. No response reaches the caller. *)
Theorem suppressed_error_unbound_local
  {ASGIApp W Backend : Type} (E : Collaborators ASGIApp W Backend)
  (self : Mangum ASGIApp) (event context : pyval) (w w1 : W) :
  lifespan self <> "off" ->
  LifespanCycle_enter E (app self) (lifespan self) w = (Ok tt, w1) ->
  (forall exc w', exc <> None ->
     fst (LifespanCycle_exit E (app self) (lifespan self) exc w') = Ok true) ->
  (forall e,
     from_trigger E event context (handler_kwargs self) = Raise e ->
     outcome E self event context w = Raise (UnboundLocalError "handler"))
  /\ (forall h e w2,
      from_trigger E event context (handler_kwargs self) = Ok h ->
      (isinstance_WsRequest (Handler.request h) = false
       /\ HTTPCycle_call E (Handler.request h) (app self) (Handler.body h) w1
          = (Raise e, w2))
      \/ (isinstance_WsRequest (Handler.request h) = true
          /\ WebSocket_new E (websocket_args self h) = Raise e)
      \/ (isinstance_WsRequest (Handler.request h) = true
          /\ exists ws,
            WebSocket_new E (websocket_args self h) = Ok ws
            /\ WebSocketCycle_call E (Handler.request h)
                 (Handler.message_type h) (Handler.connection_id h) ws
                 (app self) (Handler.body h) w1 = (Raise e, w2)) ->
      outcome E self event context w = Raise (UnboundLocalError "response")).
Proof.
  intros Hmode Henter Hexit. apply String.eqb_neq in Hmode.
  assert (Hsup : forall e w',
    exists w'', LifespanCycle_exit E (app self) (lifespan self) (Some e) w'
                = (Ok true, w'')).
  { intros e w'. pose proof (Hexit (Some e) w') as H.
    destruct (LifespanCycle_exit E (app self) (lifespan self) (Some e) w')
      as [r w'']. cbn [fst] in H. exists w''. rewrite H by discriminate.
    reflexivity. }
  split.
  - intros e Hft. destruct (Hsup e w1) as [w'' Hx]. run_call. reflexivity.
  - intros h e w2 Hft [[Hreq Hc] | [[Hreq Hws] | [Hreq (ws & Hws & Hc)]]].
    + destruct (Hsup e w2) as [w'' Hx]. run_call. reflexivity.
    + destruct (Hsup e w1) as [w'' Hx]. run_call. reflexivity.
    + destruct (Hsup e w2) as [w'' Hx]. run_call. reflexivity.
Qed.

(** An exit that suppresses, on an unrecognized event. *)
Lemma suppressed_error_unbound_local_witness :
  outcome
    (with_LifespanCycle_exit Example.collaborators
       (fun _ _ _ w => (Ok true, w)))
    (Example.adapter Example.good_app "auto" None None)
    Example.unknown_event PyNone []
  = Raise (UnboundLocalError "handler").
Proof.
  assert (Hmode : "auto" <> "off") by discriminate.
  exact (proj1 (suppressed_error_unbound_local
                  (with_LifespanCycle_exit Example.collaborators
                     (fun _ _ _ w => (Ok true, w)))
                  (Example.adapter Example.good_app "auto" None None)
                  Example.unknown_event PyNone [] ["lifespan.startup"]
                  Hmode eq_refl (fun _ _ _ => eq_refl))
           unrecognized_trigger eq_refl).
Defined.
